(** * nypm: argument synthesis of the package-manager API (src/api.ts)

    A shallow embedding of the five exported operations of [api.ts]:
    [installDependencies], [addDependency], [addDevDependency],
    [removeDependency] and [ensureDependencyInstalled].

    Every operation is an [async] function that resolves its options, builds
    an array of string tokens and hands it to [executeCommand].  The embedding
    keeps that shape: an operation is a value of [Run A], the list of Command
    Executor calls it made together with either the error that rejected the
    promise or the value it resolved to. *)

From Stdlib Require Import String List Bool.
Import ListNotations.
Open Scope string_scope.
Open Scope list_scope.

(** ** Data model (types.ts) *)

(** Modelled from the spec: types.ts is absent; PackageManagerName is the
    enumerated value in {npm, yarn, pnpm, bun}. *)
Inductive PackageManagerName : Type := npm | yarn | pnpm | bun.

(** Modelled from the spec: types.ts is absent; PackageManagerInfo is
    {name, command: launch executable string, majorVersion: string}. *)
Record PackageManagerInfo : Type := mkPackageManagerInfo {
  name : PackageManagerName;
  command : string;
  majorVersion : string
}.

(** Modelled from the spec: types.ts is absent; OperationOptions has every
    field optional.  An absent field ([undefined]) is [None]. *)
Record OperationOptions : Type := mkOperationOptions {
  opt_cwd : option string;
  opt_silent : option bool;
  opt_packageManager : option PackageManagerInfo;
  opt_dev : option bool;
  opt_workspace : option string;
  opt_global : option bool
}.

(** Modelled from the spec: types.ts is absent; ResolvedOperationOptions is
    OperationOptions with packageManager and cwd guaranteed present. *)
Record ResolvedOperationOptions : Type := mkResolvedOperationOptions {
  cwd : string;
  silent : option bool;
  packageManager : PackageManagerInfo;
  dev : option bool;
  workspace : option string;
  global : option bool
}.

(** [Pick<OperationOptions, "cwd" | "silent" | "packageManager"> &
    { frozenLockFile?: boolean }], the parameter of [installDependencies]. *)
Record InstallOptions : Type := mkInstallOptions {
  install_cwd : option string;
  install_silent : option bool;
  install_packageManager : option PackageManagerInfo;
  frozenLockFile : option bool
}.

(** [Pick<OperationOptions, "cwd" | "dev" | "workspace">], the parameter of
    [ensureDependencyInstalled]. *)
Record EnsureOptions : Type := mkEnsureOptions {
  ensure_cwd : option string;
  ensure_dev : option bool;
  ensure_workspace : option string
}.

(** The default parameter value [{}]. *)
Definition emptyOptions : OperationOptions :=
  mkOperationOptions None None None None None None.

(** The three object types above are read by the resolver as
    [OperationOptions]: the fields they do not have are [undefined]. *)
Definition installOperationOptions (o : InstallOptions) : OperationOptions :=
  mkOperationOptions (install_cwd o) (install_silent o)
    (install_packageManager o) None None None.

Definition ensureOperationOptions (o : EnsureOptions) : OperationOptions :=
  mkOperationOptions (ensure_cwd o) None None (ensure_dev o)
    (ensure_workspace o) None.

(** A resolved object handed to a function that takes [OperationOptions]
    (line 179): the same object, every guaranteed field present. *)
Definition toOperationOptions (r : ResolvedOperationOptions) : OperationOptions :=
  mkOperationOptions (Some (cwd r)) (silent r) (Some (packageManager r))
    (dev r) (workspace r) (global r).

(** The object spread [{ ...options, dev: true }] of line 106. *)
Definition withDev (o : OperationOptions) : OperationOptions :=
  mkOperationOptions (opt_cwd o) (opt_silent o) (opt_packageManager o)
    (Some true) (opt_workspace o) (opt_global o).

(** [name: string | string[]] *)
Inductive NameArg : Type :=
  | OneName (n : string)
  | ManyNames (ns : list string).

(** ** JavaScript truthiness *)

(** [x ? a : b] on an optional boolean: [undefined] and [false] are falsy. *)
Definition truthy (b : option bool) : bool :=
  match b with
  | Some true => true
  | _ => false
  end.

(** [Boolean] applied to a string, the predicate of [.filter(Boolean)]: only
    the empty string is falsy. *)
Definition Boolean (s : string) : bool :=
  match s with
  | EmptyString => false
  | String _ _ => true
  end.

Definition eqPackageManagerName (a b : PackageManagerName) : bool :=
  match a, b with
  | npm, npm | yarn, yarn | pnpm, pnpm | bun, bun => true
  | _, _ => false
  end.

(** ** Command Executor calls and the result of an async operation *)

Record Invocation : Type := mkInvocation {
  inv_command : string;
  inv_args : list string;
  inv_cwd : string;
  inv_silent : option bool
}.

Inductive Error : Type :=
  | DetectionError
  | ExecutionError (i : Invocation).

(** What an awaited operation did: the Command Executor calls in order, and
    the rejection or the resolved value. *)
Definition Run (A : Type) : Type := (list Invocation * (Error + A))%type.

Definition ret {A : Type} (a : A) : Run A := ([], inr a).

Definition bind {A B : Type} (m : Run A) (k : A -> Run B) : Run B :=
  match m with
  | (c, inl e) => (c, inl e)
  | (c, inr a) => let (c', r) := k a in (c ++ c', r)
  end.

Notation "'let_await' x ':=' m 'in' k" := (bind m (fun x => k))
  (at level 10, x name, m at level 100, k at level 200).
Notation "'do_await' m ';;' k" := (bind m (fun _ => k))
  (at level 10, m at level 100, k at level 200).

Definition calls {A : Type} (m : Run A) : list Invocation := fst m.
Definition outcome {A : Type} (m : Run A) : Error + A := snd m.

Definition lift {A : Type} (r : Error + A) : Run A := ([], r).

(** ** The Options Resolver of the specification *)

(** Modelled from the spec: _utils.ts (resolveOperationOptions and the
    Package Manager Detector behind it) is absent.  The resolver accepts
    partial options; an explicit packageManager override takes precedence over
    filesystem detection; cwd defaults to the current process working
    directory; a failure of the Detector propagates.  The other fields are
    those of the caller.  [processCwd] is the working directory of the
    process and [detectPackageManager] the Detector on a directory. *)
Definition resolveOperationOptions_spec (processCwd : string)
    (detectPackageManager : string -> option PackageManagerInfo)
    (options : OperationOptions) : Error + ResolvedOperationOptions :=
  let dir :=
    match opt_cwd options with
    | Some d => d
    | None => processCwd
    end in
  let resolved pm :=
    mkResolvedOperationOptions dir (opt_silent options) pm (opt_dev options)
      (opt_workspace options) (opt_global options) in
  match opt_packageManager options with
  | Some pm => inr (resolved pm)
  | None =>
      match detectPackageManager dir with
      | Some pm => inr (resolved pm)
      | None => inl DetectionError
      end
  end.

(** ** Sample projects, used to run the operations on concrete inputs *)

Definition npmInfo : PackageManagerInfo := mkPackageManagerInfo npm "npm" "10".
Definition yarnClassicInfo : PackageManagerInfo := mkPackageManagerInfo yarn "yarn" "1".
Definition yarnBerryInfo : PackageManagerInfo := mkPackageManagerInfo yarn "yarn" "2".
Definition pnpmInfo : PackageManagerInfo := mkPackageManagerInfo pnpm "pnpm" "9".

(** A project in which only a [pnpm-lock.yaml] is found. *)
Definition pnpmProject (dir : string) : option PackageManagerInfo := Some pnpmInfo.

(** A directory without any package-manager signal. *)
Definition noProject (dir : string) : option PackageManagerInfo := None.

(** A project outside any workspace: no workspace-selector arguments. *)
Definition noWorkspaceArgs (r : ResolvedOperationOptions) : list string := [].

(** A monorepo whose packages are selected with [--filter <workspace>]. *)
Definition filterWorkspaceArgs (r : ResolvedOperationOptions) : list string :=
  match workspace r with
  | Some w => ["--filter"; w]
  | None => []
  end.

(** A machine on which only the directory [root] holds a pnpm project. *)
Definition pnpmProjectAt (root dir : string) : option PackageManagerInfo :=
  if dir =? root then Some pnpmInfo else None.

Definition alwaysExits0 (i : Invocation) : bool := true.

Definition installedDeps (deps : list string) (n : string)
    (r : ResolvedOperationOptions) : bool :=
  existsb (String.eqb n) deps.

(** [{ packageManager: pm }] *)
Definition optionsFor (pm : PackageManagerInfo) : OperationOptions :=
  mkOperationOptions None None (Some pm) None None None.

(** [{ packageManager: pm, dev: true }] *)
Definition devOptionsFor (pm : PackageManagerInfo) : OperationOptions :=
  mkOperationOptions None None (Some pm) (Some true) None None.

(** [{ packageManager: pm, dev: true, global: true }] *)
Definition devGlobalOptionsFor (pm : PackageManagerInfo) : OperationOptions :=
  mkOperationOptions None None (Some pm) (Some true) None (Some true).

(** [{ packageManager: pm, global: true }] *)
Definition globalOptionsFor (pm : PackageManagerInfo) : OperationOptions :=
  mkOperationOptions None None (Some pm) None None (Some true).

(** The resolver on a machine whose process runs in [/work], with no
    package-manager signal on disk: the package manager comes from the
    caller. *)
Definition resolveInWork : OperationOptions -> Error + ResolvedOperationOptions :=
  resolveOperationOptions_spec "/work" noProject.

(** The same machine, the process running in a project where the Detector
    finds pnpm. *)
Definition resolveInPnpmProject
    : OperationOptions -> Error + ResolvedOperationOptions :=
  resolveOperationOptions_spec "/work" pnpmProject.

(** The process runs in [/work]; the only project is the pnpm one in
    [/proj]. *)
Definition resolveWithProj
    : OperationOptions -> Error + ResolvedOperationOptions :=
  resolveOperationOptions_spec "/work" (pnpmProjectAt "/proj").

Definition resolvedInWork (pm : PackageManagerInfo) (isDev isGlobal : option bool)
    : ResolvedOperationOptions :=
  mkResolvedOperationOptions "/work" None pm isDev None isGlobal.

(** ** The operations of api.ts *)

Section Api.

(** The four imports from ["./_utils"], which api.ts only calls. *)

(** The Options Resolver: fails with the Detector's error or yields the
    resolved options. *)
Variable resolveOperationOptions :
  OperationOptions -> Error + ResolvedOperationOptions.

(** The workspace-selector arguments of a resolved call. *)
Variable getWorkspaceArgs : ResolvedOperationOptions -> list string.

(** The Dependency Existence Checker. *)
Variable doesDependencyExist : string -> ResolvedOperationOptions -> bool.

(** Whether the subprocess of a Command Executor call exits with code 0. *)
Variable exitsZero : Invocation -> bool.

(** Modelled from the spec: _utils.ts is absent; the Command Executor spawns
    one subprocess for the binary, the argument list and {cwd, silent},
    resolves when it exits successfully and rejects otherwise. *)
Definition executeCommand (cmd : string) (args : list string)
    (dir : string) (quiet : option bool) : Run unit :=
  let i := mkInvocation cmd args dir quiet in
  ([i], if exitsZero i then inr tt else inl (ExecutionError i)).

(** Lines 25-30. *)
Definition pmToInstallCommandMap (n : PackageManagerName) : list string :=
  match n with
  | npm => ["ci"]
  | yarn => ["install"; "--immutable"]
  | bun => ["install"; "--frozen-lockfile"]
  | pnpm => ["install"; "--frozen-lockfile"]
  end.

(** Lines 32-34, the local [commandArgs]. *)
Definition installDependencies_commandArgs (options : InstallOptions)
    (resolvedOptions : ResolvedOperationOptions) : list string :=
  if truthy (frozenLockFile options)
  then pmToInstallCommandMap (name (packageManager resolvedOptions))
  else ["install"].

(** Lines 18-40. *)
Definition installDependencies (options : InstallOptions) : Run unit :=
  let_await resolvedOptions :=
    lift (resolveOperationOptions (installOperationOptions options)) in
  let commandArgs := installDependencies_commandArgs options resolvedOptions in
  executeCommand (command (packageManager resolvedOptions)) commandArgs
    (cwd resolvedOptions) (silent resolvedOptions).

(** Line 60: [Array.isArray(name) ? name : [name]]. *)
Definition namesOf (n : NameArg) : list string :=
  match n with
  | OneName s => [s]
  | ManyNames l => l
  end.

(** Lines 62-82, the local [args] of [addDependency]. *)
Definition addDependency_args (resolvedOptions : ResolvedOperationOptions)
    (names : list string) : list string :=
  filter Boolean
    (if eqPackageManagerName (name (packageManager resolvedOptions)) yarn
     then
       getWorkspaceArgs resolvedOptions ++
       [ if truthy (global resolvedOptions) &&
            (majorVersion (packageManager resolvedOptions) =? "1")
         then "global" else "" ;
         "add" ;
         if truthy (dev resolvedOptions) then "-D" else "" ] ++
       names
     else
       [ if eqPackageManagerName (name (packageManager resolvedOptions)) npm
         then "install" else "add" ] ++
       getWorkspaceArgs resolvedOptions ++
       [ if truthy (dev resolvedOptions) then "-D" else "" ;
         if truthy (global resolvedOptions) then "-g" else "" ] ++
       names).

(** Lines 54-88. *)
Definition addDependency (n : NameArg) (options : OperationOptions) : Run unit :=
  let_await resolvedOptions := lift (resolveOperationOptions options) in
  let names := namesOf n in
  let args := addDependency_args resolvedOptions names in
  executeCommand (command (packageManager resolvedOptions)) args
    (cwd resolvedOptions) (silent resolvedOptions).

(** Lines 102-107. *)
Definition addDevDependency (n : NameArg) (options : OperationOptions) : Run unit :=
  addDependency n (withDev options).

(** Lines 127-150, the local [args] of [removeDependency]. *)
Definition removeDependency_args (resolvedOptions : ResolvedOperationOptions)
    (n : string) : list string :=
  filter Boolean
    (if eqPackageManagerName (name (packageManager resolvedOptions)) yarn
     then
       [ if truthy (global resolvedOptions) &&
            (majorVersion (packageManager resolvedOptions) =? "1")
         then "global" else "" ] ++
       getWorkspaceArgs resolvedOptions ++
       [ "remove" ;
         if truthy (dev resolvedOptions) then "-D" else "" ;
         if truthy (global resolvedOptions) then "-g" else "" ;
         n ]
     else
       [ if eqPackageManagerName (name (packageManager resolvedOptions)) npm
         then "uninstall" else "remove" ] ++
       getWorkspaceArgs resolvedOptions ++
       [ if truthy (dev resolvedOptions) then "-D" else "" ;
         if truthy (global resolvedOptions) then "-g" else "" ;
         n ]).

(** Lines 121-156. *)
Definition removeDependency (n : string) (options : OperationOptions) : Run unit :=
  let_await resolvedOptions := lift (resolveOperationOptions options) in
  let args := removeDependency_args resolvedOptions n in
  executeCommand (command (packageManager resolvedOptions)) args
    (cwd resolvedOptions) (silent resolvedOptions).

(** Lines 167-180.  The function resolves to [true] when the dependency is
    there and to [undefined] ([None]) after a delegated add. *)
Definition ensureDependencyInstalled (n : string) (options : EnsureOptions)
    : Run (option bool) :=
  let_await resolvedOptions :=
    lift (resolveOperationOptions (ensureOperationOptions options)) in
  let dependencyExists := doesDependencyExist n resolvedOptions in
  if dependencyExists then ret (Some true)
  else
    do_await addDependency (OneName n) (toOperationOptions resolvedOptions) ;;
    ret None.

(** ** Facts about the token filter and the async sequencing *)

Lemma Boolean_true_iff (s : string) : Boolean s = true <-> s <> "".
Proof.
  destruct s; simpl; split; intro H; try discriminate; try reflexivity.
  exfalso; apply H; reflexivity.
Qed.

Lemma filter_Boolean_nonempty (l : list string) :
  Forall (fun tok => tok <> "") (filter Boolean l).
Proof.
  apply Forall_forall. intros tok Hin.
  apply filter_In in Hin. apply Boolean_true_iff, Hin.
Qed.

Lemma filter_Boolean_id (l : list string) :
  Forall (fun tok => tok <> "") l -> filter Boolean l = l.
Proof.
  induction 1 as [| tok l Htok _ IH]; simpl.
  - reflexivity.
  - apply Boolean_true_iff in Htok. rewrite Htok, IH. reflexivity.
Qed.

Lemma bind_lift_inr {A B : Type} (a : A) (k : A -> Run B) :
  bind (lift (inr a)) k = k a.
Proof. unfold bind, lift. destruct (k a). reflexivity. Qed.

(** What each operation does once the resolver has answered. *)

Lemma installDependencies_resolved options ro :
  resolveOperationOptions (installOperationOptions options) = inr ro ->
  installDependencies options =
  executeCommand (command (packageManager ro))
    (installDependencies_commandArgs options ro) (cwd ro) (silent ro).
Proof. intro H. unfold installDependencies. rewrite H, bind_lift_inr. reflexivity. Qed.

Lemma addDependency_resolved n options ro :
  resolveOperationOptions options = inr ro ->
  addDependency n options =
  executeCommand (command (packageManager ro))
    (addDependency_args ro (namesOf n)) (cwd ro) (silent ro).
Proof. intro H. unfold addDependency. rewrite H, bind_lift_inr. reflexivity. Qed.

Lemma removeDependency_resolved n options ro :
  resolveOperationOptions options = inr ro ->
  removeDependency n options =
  executeCommand (command (packageManager ro))
    (removeDependency_args ro n) (cwd ro) (silent ro).
Proof. intro H. unfold removeDependency. rewrite H, bind_lift_inr. reflexivity. Qed.

Lemma addDependency_unresolved n options e :
  resolveOperationOptions options = inl e ->
  addDependency n options = ([], inl e).
Proof. intro H. unfold addDependency. rewrite H. reflexivity. Qed.

Lemma removeDependency_unresolved n options e :
  resolveOperationOptions options = inl e ->
  removeDependency n options = ([], inl e).
Proof. intro H. unfold removeDependency. rewrite H. reflexivity. Qed.

(** The names of [addDependency] are the tail of the array literal in both
    branches, so the filter splits into the flag tokens and the names. *)
Lemma addDependency_args_split ro names :
  addDependency_args ro names =
  addDependency_args ro [] ++ filter Boolean names.
Proof.
  unfold addDependency_args.
  destruct (eqPackageManagerName (name (packageManager ro)) yarn);
    repeat rewrite filter_app; repeat rewrite app_nil_r;
    repeat rewrite <- app_assoc; reflexivity.
Qed.

Lemma removeDependency_args_split ro n :
  removeDependency_args ro n =
  removeDependency_args ro "" ++ filter Boolean [n].
Proof.
  unfold removeDependency_args.
  destruct (eqPackageManagerName (name (packageManager ro)) yarn);
    repeat rewrite filter_app; simpl;
    destruct (truthy (dev ro)), (truthy (global ro)); simpl;
    repeat rewrite app_nil_r; repeat rewrite <- app_assoc; simpl;
    destruct (Boolean n); simpl; repeat rewrite app_nil_r; reflexivity.
Qed.

(** ** installDependencies *)

(** C1.  Once the options are resolved, installDependencies makes one Command
    Executor call, with the resolved package manager's command and an
    argument list that is ["ci"] for npm, ["install", "--immutable"] for yarn
    and ["install", "--frozen-lockfile"] for pnpm and bun when frozenLockFile
    is true, and exactly ["install"] when frozenLockFile is absent or
    false. *)
Theorem installDependencies_argument_list
    (options : InstallOptions) (ro : ResolvedOperationOptions) :
  resolveOperationOptions (installOperationOptions options) = inr ro ->
  exists args : list string,
    calls (installDependencies options) =
      [mkInvocation (command (packageManager ro)) args (cwd ro) (silent ro)] /\
    (frozenLockFile options = Some true ->
       match name (packageManager ro) with
       | npm => args = ["ci"]
       | yarn => args = ["install"; "--immutable"]
       | pnpm => args = ["install"; "--frozen-lockfile"]
       | bun => args = ["install"; "--frozen-lockfile"]
       end) /\
    (frozenLockFile options = None \/ frozenLockFile options = Some false ->
       args = ["install"]).
Proof.
  intro Hres.
  exists (installDependencies_commandArgs options ro).
  rewrite (installDependencies_resolved _ _ Hres).
  split; [reflexivity |].
  unfold installDependencies_commandArgs. split.
  - intro Hfrozen. rewrite Hfrozen. simpl.
    destruct (name (packageManager ro)); reflexivity.
  - intros [Habsent | Hfalse]; [rewrite Habsent | rewrite Hfalse]; reflexivity.
Qed.

(** ** addDependency *)

(** C2.  When the resolved package manager is yarn, addDependency makes one
    call.  For majorVersion "1" and a true global (the resolved one, or
    options.global where the resolver hands it on) its argument list holds
    the token "global" immediately before "add".  For any other majorVersion
    the "global" token is absent whatever the value of global: the list is
    the workspace-selector arguments, "add", "-D" if dev, and the names; it
    is the same list for every value of the global field; and it does not
    hold "global" unless the caller put it there as a workspace-selector
    argument or as a dependency name. *)
Theorem addDependency_yarn_global_token
    (n : NameArg) (options : OperationOptions) (ro : ResolvedOperationOptions) :
  resolveOperationOptions options = inr ro ->
  name (packageManager ro) = yarn ->
  exists args : list string,
    calls (addDependency n options) =
      [mkInvocation (command (packageManager ro)) args (cwd ro) (silent ro)] /\
    (majorVersion (packageManager ro) = "1" -> truthy (global ro) = true ->
       exists before after, args = before ++ "global" :: "add" :: after) /\
    (majorVersion (packageManager ro) = "1" ->
     opt_global options = Some true ->
     truthy (global ro) = truthy (opt_global options) ->
       exists before after, args = before ++ "global" :: "add" :: after) /\
    (majorVersion (packageManager ro) <> "1" ->
       args = filter Boolean (getWorkspaceArgs ro) ++ ["add"] ++
              (if truthy (dev ro) then ["-D"] else []) ++
              filter Boolean (namesOf n)) /\
    (majorVersion (packageManager ro) <> "1" ->
       forall g : option bool,
         getWorkspaceArgs
           (mkResolvedOperationOptions (cwd ro) (silent ro) (packageManager ro)
              (dev ro) (workspace ro) g) = getWorkspaceArgs ro ->
         addDependency_args
           (mkResolvedOperationOptions (cwd ro) (silent ro) (packageManager ro)
              (dev ro) (workspace ro) g) (namesOf n) = args) /\
    (majorVersion (packageManager ro) <> "1" ->
       ~ In "global" (getWorkspaceArgs ro) -> ~ In "global" (namesOf n) ->
       ~ In "global" args).
Proof.
  intros Hres Hyarn.
  exists (addDependency_args ro (namesOf n)).
  rewrite (addDependency_resolved _ _ _ Hres).
  split; [reflexivity |].
  assert (Hclassic : majorVersion (packageManager ro) = "1" ->
            truthy (global ro) = true ->
            exists before after,
              addDependency_args ro (namesOf n) =
              before ++ "global" :: "add" :: after).
  { intros Hmv Hglobal.
    exists (filter Boolean (getWorkspaceArgs ro)).
    exists (filter Boolean ((if truthy (dev ro) then "-D" else "") :: namesOf n)).
    unfold addDependency_args. rewrite Hyarn, Hmv, Hglobal. simpl.
    rewrite filter_app. reflexivity. }
  assert (Hberry : majorVersion (packageManager ro) <> "1" ->
            addDependency_args ro (namesOf n) =
            filter Boolean (getWorkspaceArgs ro) ++ ["add"] ++
            (if truthy (dev ro) then ["-D"] else []) ++
            filter Boolean (namesOf n)).
  { intro Hmv. apply String.eqb_neq in Hmv.
    unfold addDependency_args. rewrite Hyarn, Hmv, andb_false_r. simpl.
    rewrite filter_app. simpl. destruct (truthy (dev ro)); reflexivity. }
  split; [exact Hclassic | split; [| split; [exact Hberry | split]]].
  - intros Hmv Hcaller Hkept. apply (Hclassic Hmv).
    rewrite Hkept, Hcaller. reflexivity.
  - intros Hmv g Hws. rewrite (Hberry Hmv). apply String.eqb_neq in Hmv.
    unfold addDependency_args. simpl. rewrite Hws, Hyarn, Hmv, andb_false_r.
    simpl. rewrite filter_app. simpl. destruct (truthy (dev ro)); reflexivity.
  - intros Hmv Hws Hnames Hin. rewrite (Hberry Hmv) in Hin.
    apply in_app_or in Hin. destruct Hin as [Hin | Hin].
    + apply Hws. apply filter_In in Hin. apply Hin.
    + apply in_app_or in Hin. destruct Hin as [Hin | Hin].
      * simpl in Hin. destruct Hin as [Hin | []]. discriminate Hin.
      * apply in_app_or in Hin. destruct Hin as [Hin | Hin].
        -- destruct (truthy (dev ro)); simpl in Hin.
           ++ destruct Hin as [Hin | []]. discriminate Hin.
           ++ destruct Hin.
        -- apply Hnames. apply filter_In in Hin. apply Hin.
Qed.

(** ** ensureDependencyInstalled *)

(** C3.  Once the options are resolved: when the Dependency Existence Checker
    reports the dependency present, ensureDependencyInstalled makes no Command
    Executor call and resolves to [true]; when it reports it absent, the calls
    and the failure of ensureDependencyInstalled are those of addDependency on
    the name and the resolved options, that is the object whose cwd, silent,
    packageManager, dev, workspace and global are the resolved ones; the one
    command that then runs is built from what addDependency resolves that
    object to. *)
Theorem ensureDependencyInstalled_present_or_delegates
    (n : string) (options : EnsureOptions) (ro : ResolvedOperationOptions) :
  resolveOperationOptions
    (mkOperationOptions (ensure_cwd options) None None (ensure_dev options)
       (ensure_workspace options) None) = inr ro ->
  (doesDependencyExist n ro = true ->
     ensureDependencyInstalled n options = ([], inr (Some true))) /\
  (doesDependencyExist n ro = false ->
     calls (ensureDependencyInstalled n options) =
       calls (addDependency (OneName n)
                (mkOperationOptions (Some (cwd ro)) (silent ro)
                   (Some (packageManager ro)) (dev ro) (workspace ro)
                   (global ro))) /\
     outcome (ensureDependencyInstalled n options) =
       match outcome (addDependency (OneName n)
                        (mkOperationOptions (Some (cwd ro)) (silent ro)
                           (Some (packageManager ro)) (dev ro) (workspace ro)
                           (global ro))) with
       | inl e => inl e
       | inr _ => inr None
       end /\
     opt_dev (toOperationOptions ro) = dev ro /\
     opt_workspace (toOperationOptions ro) = workspace ro /\
     (forall ro' : ResolvedOperationOptions,
        resolveOperationOptions
          (mkOperationOptions (Some (cwd ro)) (silent ro)
             (Some (packageManager ro)) (dev ro) (workspace ro) (global ro))
          = inr ro' ->
        calls (ensureDependencyInstalled n options) =
          [mkInvocation (command (packageManager ro'))
             (addDependency_args ro' [n]) (cwd ro') (silent ro')])).
Proof.
  intro Hres. unfold ensureDependencyInstalled.
  change (ensureOperationOptions options)
    with (mkOperationOptions (ensure_cwd options) None None (ensure_dev options)
            (ensure_workspace options) None).
  rewrite Hres, bind_lift_inr.
  change (toOperationOptions ro)
    with (mkOperationOptions (Some (cwd ro)) (silent ro)
            (Some (packageManager ro)) (dev ro) (workspace ro) (global ro)).
  split; intro Hdep; rewrite Hdep; [reflexivity |].
  assert (Hcalls :
    calls (bind (addDependency (OneName n)
                   (mkOperationOptions (Some (cwd ro)) (silent ro)
                      (Some (packageManager ro)) (dev ro) (workspace ro)
                      (global ro)))
                (fun _ => @ret (option bool) None)) =
    calls (addDependency (OneName n)
             (mkOperationOptions (Some (cwd ro)) (silent ro)
                (Some (packageManager ro)) (dev ro) (workspace ro)
                (global ro)))).
  { destruct (addDependency _ _) as [c [e | u]]; unfold calls; simpl;
      [reflexivity | apply app_nil_r]. }
  split; [exact Hcalls |].
  split.
  { destruct (addDependency _ _) as [c [e | u]]; reflexivity. }
  split; [reflexivity | split; [reflexivity |]].
  intros ro' Hagain. rewrite Hcalls.
  rewrite (addDependency_resolved _ _ _ Hagain). reflexivity.
Qed.

(** ** removeDependency *)

(** C4 (as amended).  For a non-empty name, removeDependency makes one call
    whose argument list is its flag tokens followed by exactly that one name;
    with default options (resolved dev and global falsy, no
    workspace-selector arguments) the list is exactly ["uninstall", name] for
    npm and ["remove", name] for yarn, pnpm and bun. *)
Theorem removeDependency_default_argument_list
    (n : string) (options : OperationOptions) (ro : ResolvedOperationOptions) :
  resolveOperationOptions options = inr ro ->
  n <> "" ->
  exists args : list string,
    calls (removeDependency n options) =
      [mkInvocation (command (packageManager ro)) args (cwd ro) (silent ro)] /\
    args = removeDependency_args ro "" ++ [n] /\
    (truthy (dev ro) = false -> truthy (global ro) = false ->
     getWorkspaceArgs ro = [] ->
       match name (packageManager ro) with
       | npm => args = ["uninstall"; n]
       | yarn => args = ["remove"; n]
       | pnpm => args = ["remove"; n]
       | bun => args = ["remove"; n]
       end).
Proof.
  intros Hres Hn.
  exists (removeDependency_args ro n).
  rewrite (removeDependency_resolved _ _ _ Hres).
  apply Boolean_true_iff in Hn.
  split; [reflexivity | split].
  - rewrite removeDependency_args_split. simpl. rewrite Hn. reflexivity.
  - intros Hdev Hglobal Hws. unfold removeDependency_args.
    rewrite Hdev, Hglobal, Hws.
    destruct (name (packageManager ro)); simpl; rewrite Hn; reflexivity.
Qed.

(** ** addDependency with the dev flag *)

(** C5.  For npm, pnpm and bun, addDependency("foo") with a truthy dev and a
    falsy global makes one call whose argument list ends in "-D", "foo"; with
    no workspace-selector arguments the whole list is
    ["install", "-D", "foo"] for npm and ["add", "-D", "foo"] for pnpm and
    bun. *)
Theorem addDependency_dev_argument_list
    (options : OperationOptions) (ro : ResolvedOperationOptions) :
  resolveOperationOptions options = inr ro ->
  name (packageManager ro) <> yarn ->
  truthy (dev ro) = true ->
  truthy (global ro) = false ->
  exists args : list string,
    calls (addDependency (OneName "foo") options) =
      [mkInvocation (command (packageManager ro)) args (cwd ro) (silent ro)] /\
    (exists front, args = front ++ ["-D"; "foo"]) /\
    (getWorkspaceArgs ro = [] ->
       match name (packageManager ro) with
       | npm => args = ["install"; "-D"; "foo"]
       | _ => args = ["add"; "-D"; "foo"]
       end).
Proof.
  intros Hres Hpm Hdev Hglobal.
  exists (addDependency_args ro (namesOf (OneName "foo"))).
  rewrite (addDependency_resolved _ _ _ Hres).
  split; [reflexivity |].
  unfold addDependency_args. rewrite Hdev, Hglobal.
  destruct (name (packageManager ro)); try (exfalso; apply Hpm; reflexivity);
    simpl; (split; [| intro Hws; rewrite Hws; reflexivity]);
    rewrite filter_app; simpl;
    match goal with
    | |- exists front, ?hd :: ?ws ++ _ = _ => exists (hd :: ws); reflexivity
    end.
Qed.

(** ** addDevDependency *)

(** C6.  addDevDependency(name, options) is addDependency on the same name
    and the caller's options with dev set to true: cwd, silent,
    packageManager, workspace and global are the caller's, and any dev of the
    caller is overridden.  When the resolved package manager is pnpm (dev kept
    by the resolver, global falsy, no workspace-selector arguments),
    addDevDependency("left-pad") makes one call of the pnpm command with
    ["add", "-D", "left-pad"]. *)
Theorem addDevDependency_is_addDependency_dev :
  (forall (n : NameArg) (options : OperationOptions),
     addDevDependency n options =
     addDependency n
       (mkOperationOptions (opt_cwd options) (opt_silent options)
          (opt_packageManager options) (Some true) (opt_workspace options)
          (opt_global options))) /\
  (forall (options : OperationOptions) (ro : ResolvedOperationOptions),
     resolveOperationOptions
       (mkOperationOptions (opt_cwd options) (opt_silent options)
          (opt_packageManager options) (Some true) (opt_workspace options)
          (opt_global options)) = inr ro ->
     name (packageManager ro) = pnpm ->
     dev ro = Some true ->
     truthy (global ro) = false ->
     getWorkspaceArgs ro = [] ->
     calls (addDevDependency (OneName "left-pad") options) =
       [mkInvocation (command (packageManager ro)) ["add"; "-D"; "left-pad"]
          (cwd ro) (silent ro)]).
Proof.
  assert (Hspread : forall n options,
            addDevDependency n options =
            addDependency n
              (mkOperationOptions (opt_cwd options) (opt_silent options)
                 (opt_packageManager options) (Some true)
                 (opt_workspace options) (opt_global options))).
  { intros n options. unfold addDevDependency, withDev. reflexivity. }
  split; [exact Hspread |].
  intros options ro Hres Hpm Hdev Hglobal Hws.
  rewrite Hspread, (addDependency_resolved _ _ _ Hres).
  unfold addDependency_args. rewrite Hpm, Hdev, Hglobal, Hws. reflexivity.
Qed.

(** ** The empty-string filter *)

(** C7.  Whatever the resolved package manager, dev, global, workspace and
    majorVersion, the argument lists synthesized by addDependency and
    removeDependency, and so the argument list of every Command Executor call
    they make, contain no empty-string token. *)
Theorem add_remove_args_no_empty_token :
  (forall (ro : ResolvedOperationOptions) (names : list string),
     Forall (fun tok => tok <> "") (addDependency_args ro names)) /\
  (forall (ro : ResolvedOperationOptions) (n : string),
     Forall (fun tok => tok <> "") (removeDependency_args ro n)) /\
  (forall (n : NameArg) (options : OperationOptions),
     Forall (fun i => Forall (fun tok => tok <> "") (inv_args i))
       (calls (addDependency n options))) /\
  (forall (n : string) (options : OperationOptions),
     Forall (fun i => Forall (fun tok => tok <> "") (inv_args i))
       (calls (removeDependency n options))).
Proof.
  repeat split.
  - intros ro names. apply filter_Boolean_nonempty.
  - intros ro n. apply filter_Boolean_nonempty.
  - intros n options.
    destruct (resolveOperationOptions options) as [e | ro] eqn:Hres.
    + rewrite (addDependency_unresolved _ _ _ Hres). constructor.
    + rewrite (addDependency_resolved _ _ _ Hres).
      repeat constructor. apply filter_Boolean_nonempty.
  - intros n options.
    destruct (resolveOperationOptions options) as [e | ro] eqn:Hres.
    + rewrite (removeDependency_unresolved _ _ _ Hres). constructor.
    + rewrite (removeDependency_resolved _ _ _ Hres).
      repeat constructor. apply filter_Boolean_nonempty.
Qed.

(** ** One name or a list of names *)

(** C9 (as amended).  addDependency(n, options) is addDependency([n], options)
    for every name n; and for every list of names the call's argument list is
    the flag tokens (the list synthesized for no name) followed by the
    non-empty names in their given order: all the names when none of them is
    empty. *)
Theorem addDependency_names_after_flags :
  (forall (n : string) (options : OperationOptions),
     addDependency (OneName n) options = addDependency (ManyNames [n]) options) /\
  (forall (names : list string) (options : OperationOptions)
          (ro : ResolvedOperationOptions),
     resolveOperationOptions options = inr ro ->
     calls (addDependency (ManyNames names) options) =
       [mkInvocation (command (packageManager ro))
          (addDependency_args ro [] ++ filter Boolean names)
          (cwd ro) (silent ro)] /\
     (Forall (fun x => x <> "") names ->
        calls (addDependency (ManyNames names) options) =
          [mkInvocation (command (packageManager ro))
             (addDependency_args ro [] ++ names) (cwd ro) (silent ro)])).
Proof.
  split.
  - intros n options. reflexivity.
  - intros names options ro Hres.
    rewrite (addDependency_resolved _ _ _ Hres). simpl namesOf.
    rewrite addDependency_args_split. split; [reflexivity |].
    intro Hne. rewrite (filter_Boolean_id _ Hne). reflexivity.
Qed.

(** ** Empty dependency names *)

(** C10.  An empty-string dependency name is removed by the final filter:
    once the options are resolved, addDependency("") and removeDependency("")
    still make one Command Executor call each, the first with the argument
    list synthesized for no name at all, the second with the flag tokens that
    precede the name in every removeDependency call; under npm with dev and
    global falsy and no workspace-selector arguments, addDependency("") calls
    the command with exactly ["install"]. *)
Theorem empty_name_is_filtered_out
    (options : OperationOptions) (ro : ResolvedOperationOptions) :
  resolveOperationOptions options = inr ro ->
  calls (addDependency (OneName "") options) =
    [mkInvocation (command (packageManager ro)) (addDependency_args ro [])
       (cwd ro) (silent ro)] /\
  (exists flags : list string,
     calls (removeDependency "" options) =
       [mkInvocation (command (packageManager ro)) flags (cwd ro) (silent ro)] /\
     forall n : string,
       removeDependency_args ro n = flags ++ filter Boolean [n]) /\
  (name (packageManager ro) = npm -> truthy (dev ro) = false ->
   truthy (global ro) = false -> getWorkspaceArgs ro = [] ->
     calls (addDependency (OneName "") options) =
       [mkInvocation (command (packageManager ro)) ["install"]
          (cwd ro) (silent ro)]).
Proof.
  intro Hres.
  rewrite (addDependency_resolved _ _ _ Hres),
          (removeDependency_resolved _ _ _ Hres).
  simpl namesOf. rewrite (addDependency_args_split ro [""]). simpl filter.
  rewrite app_nil_r. split; [reflexivity | split].
  - exists (removeDependency_args ro ""). split; [reflexivity |].
    intro n. apply removeDependency_args_split.
  - intros Hpm Hdev Hglobal Hws. unfold addDependency_args.
    rewrite Hpm, Hdev, Hglobal, Hws. reflexivity.
Qed.

(** ** Further properties of the operations *)

(** The complete token sequence of [addDependency], the conditional tokens
    written as optional ones. *)
Lemma addDependency_args_normal_form ro names :
  addDependency_args ro names =
  match name (packageManager ro) with
  | yarn =>
      filter Boolean (getWorkspaceArgs ro) ++
      (if truthy (global ro) && (majorVersion (packageManager ro) =? "1")
       then ["global"] else []) ++
      ["add"] ++
      (if truthy (dev ro) then ["-D"] else []) ++
      filter Boolean names
  | npm =>
      ["install"] ++ filter Boolean (getWorkspaceArgs ro) ++
      (if truthy (dev ro) then ["-D"] else []) ++
      (if truthy (global ro) then ["-g"] else []) ++
      filter Boolean names
  | _ =>
      ["add"] ++ filter Boolean (getWorkspaceArgs ro) ++
      (if truthy (dev ro) then ["-D"] else []) ++
      (if truthy (global ro) then ["-g"] else []) ++
      filter Boolean names
  end.
Proof.
  unfold addDependency_args.
  destruct (name (packageManager ro)); simpl;
    repeat rewrite filter_app; simpl;
    destruct (truthy (dev ro)), (truthy (global ro));
    try destruct (majorVersion (packageManager ro) =? "1");
    reflexivity.
Qed.

Lemma removeDependency_args_normal_form ro n :
  removeDependency_args ro n =
  match name (packageManager ro) with
  | yarn =>
      (if truthy (global ro) && (majorVersion (packageManager ro) =? "1")
       then ["global"] else []) ++
      filter Boolean (getWorkspaceArgs ro) ++
      ["remove"] ++
      (if truthy (dev ro) then ["-D"] else []) ++
      (if truthy (global ro) then ["-g"] else []) ++
      filter Boolean [n]
  | npm =>
      ["uninstall"] ++ filter Boolean (getWorkspaceArgs ro) ++
      (if truthy (dev ro) then ["-D"] else []) ++
      (if truthy (global ro) then ["-g"] else []) ++
      filter Boolean [n]
  | _ =>
      ["remove"] ++ filter Boolean (getWorkspaceArgs ro) ++
      (if truthy (dev ro) then ["-D"] else []) ++
      (if truthy (global ro) then ["-g"] else []) ++
      filter Boolean [n]
  end.
Proof.
  unfold removeDependency_args.
  destruct (name (packageManager ro)); simpl;
    repeat rewrite filter_app; simpl;
    destruct (truthy (dev ro)), (truthy (global ro));
    try destruct (majorVersion (packageManager ro) =? "1");
    destruct (Boolean n); reflexivity.
Qed.

Lemma installDependencies_unresolved options e :
  resolveOperationOptions (installOperationOptions options) = inl e ->
  installDependencies options = ([], inl e).
Proof. intro H. unfold installDependencies. rewrite H. reflexivity. Qed.

Lemma In_filter_Boolean (tok : string) (l : list string) :
  tok <> "" -> In tok l -> In tok (filter Boolean l).
Proof.
  intros Htok Hin. apply filter_In. split; [exact Hin |].
  apply Boolean_true_iff, Htok.
Qed.

(** The subcommand survives the filter in every branch. *)
Lemma addDependency_args_subcommand ro names :
  In (if eqPackageManagerName (name (packageManager ro)) npm
      then "install" else "add")
     (addDependency_args ro names).
Proof.
  unfold addDependency_args.
  destruct (name (packageManager ro)); simpl eqPackageManagerName; cbv iota;
    apply In_filter_Boolean; try discriminate;
    repeat (rewrite in_app_iff; simpl); auto 10.
Qed.

Lemma removeDependency_args_subcommand ro n :
  In (if eqPackageManagerName (name (packageManager ro)) npm
      then "uninstall" else "remove")
     (removeDependency_args ro n).
Proof.
  unfold removeDependency_args.
  destruct (name (packageManager ro)); simpl eqPackageManagerName; cbv iota;
    apply In_filter_Boolean; try discriminate;
    repeat (rewrite in_app_iff; simpl); auto 10.
Qed.

Lemma installDependencies_commandArgs_tokens options ro :
  installDependencies_commandArgs options ro <> [] /\
  Forall (fun tok => tok <> "") (installDependencies_commandArgs options ro).
Proof.
  unfold installDependencies_commandArgs.
  destruct (truthy (frozenLockFile options));
    [destruct (name (packageManager ro)) |]; simpl;
    (split; [discriminate | repeat constructor; discriminate]).
Qed.

(** X1.  When the Options Resolver rejects, no operation reaches the Command
    Executor: installDependencies, addDependency, addDevDependency,
    removeDependency and ensureDependencyInstalled make no call and reject
    with the resolver's error; so does ensureDependencyInstalled when the
    resolver rejects the resolved object that it hands to addDependency. *)
Theorem resolver_rejection_makes_no_call (e : Error) :
  (forall o, resolveOperationOptions (installOperationOptions o) = inl e ->
             installDependencies o = ([], inl e)) /\
  (forall n o, resolveOperationOptions o = inl e ->
               addDependency n o = ([], inl e)) /\
  (forall n o, resolveOperationOptions (withDev o) = inl e ->
               addDevDependency n o = ([], inl e)) /\
  (forall n o, resolveOperationOptions o = inl e ->
               removeDependency n o = ([], inl e)) /\
  (forall n o, resolveOperationOptions (ensureOperationOptions o) = inl e ->
               ensureDependencyInstalled n o = ([], inl e)) /\
  (forall n o ro,
     resolveOperationOptions (ensureOperationOptions o) = inr ro ->
     doesDependencyExist n ro = false ->
     resolveOperationOptions (toOperationOptions ro) = inl e ->
     ensureDependencyInstalled n o = ([], inl e)).
Proof.
  repeat split.
  - intros o H. apply installDependencies_unresolved, H.
  - intros n o H. apply addDependency_unresolved, H.
  - intros n o H. unfold addDevDependency. apply addDependency_unresolved, H.
  - intros n o H. apply removeDependency_unresolved, H.
  - intros n o H. unfold ensureDependencyInstalled. rewrite H. reflexivity.
  - intros n o ro Hres Hdep Hagain. unfold ensureDependencyInstalled.
    rewrite Hres, bind_lift_inr, Hdep.
    rewrite (addDependency_unresolved _ _ _ Hagain). reflexivity.
Qed.

(** X2.  No operation retries or runs a second command: each of
    installDependencies, addDependency, addDevDependency and removeDependency
    makes exactly one Command Executor call when its options resolve and none
    otherwise, and ensureDependencyInstalled makes at most one. *)
Theorem operations_make_one_call_at_most :
  (forall o, length (calls (installDependencies o)) =
             match resolveOperationOptions (installOperationOptions o) with
             | inr _ => 1 | inl _ => 0 end) /\
  (forall n o, length (calls (addDependency n o)) =
               match resolveOperationOptions o with
               | inr _ => 1 | inl _ => 0 end) /\
  (forall n o, length (calls (addDevDependency n o)) =
               match resolveOperationOptions (withDev o) with
               | inr _ => 1 | inl _ => 0 end) /\
  (forall n o, length (calls (removeDependency n o)) =
               match resolveOperationOptions o with
               | inr _ => 1 | inl _ => 0 end) /\
  (forall n o, length (calls (ensureDependencyInstalled n o)) <= 1).
Proof.
  assert (Hadd : forall n o, length (calls (addDependency n o)) =
                   match resolveOperationOptions o with
                   | inr _ => 1 | inl _ => 0 end).
  { intros n o. destruct (resolveOperationOptions o) as [e | ro] eqn:Hres.
    - rewrite (addDependency_unresolved _ _ _ Hres). reflexivity.
    - rewrite (addDependency_resolved _ _ _ Hres). reflexivity. }
  repeat split.
  - intro o.
    destruct (resolveOperationOptions (installOperationOptions o))
      as [e | ro] eqn:Hres.
    + rewrite (installDependencies_unresolved _ _ Hres). reflexivity.
    + rewrite (installDependencies_resolved _ _ Hres). reflexivity.
  - exact Hadd.
  - intros n o. apply Hadd.
  - intros n o. destruct (resolveOperationOptions o) as [e | ro] eqn:Hres.
    + rewrite (removeDependency_unresolved _ _ _ Hres). reflexivity.
    + rewrite (removeDependency_resolved _ _ _ Hres). reflexivity.
  - intros n o. unfold ensureDependencyInstalled.
    destruct (resolveOperationOptions (ensureOperationOptions o))
      as [e | ro]; [apply le_S, le_n |].
    rewrite bind_lift_inr.
    destruct (doesDependencyExist n ro); [apply le_S, le_n |].
    specialize (Hadd (OneName n) (toOperationOptions ro)).
    destruct (addDependency (OneName n) (toOperationOptions ro))
      as [c [e | u]]; unfold calls in *; simpl in *;
      try rewrite app_nil_r; rewrite Hadd;
      destruct (resolveOperationOptions (toOperationOptions ro));
      auto using le_n, le_S.
Qed.

(** X3.  What ensureDependencyInstalled resolves to: [true] only when the
    options resolved and the dependency was already there, in which case no
    command ran; [undefined] only after a delegated addDependency that
    resolved; never [false]. *)
Theorem ensureDependencyInstalled_resolved_value
    (n : string) (o : EnsureOptions) (v : option bool) :
  outcome (ensureDependencyInstalled n o) = inr v ->
  exists ro,
    resolveOperationOptions (ensureOperationOptions o) = inr ro /\
    ((v = Some true /\ doesDependencyExist n ro = true /\
      calls (ensureDependencyInstalled n o) = []) \/
     (v = None /\ doesDependencyExist n ro = false /\
      outcome (addDependency (OneName n) (toOperationOptions ro)) = inr tt)).
Proof.
  unfold ensureDependencyInstalled.
  destruct (resolveOperationOptions (ensureOperationOptions o))
    as [e | ro]; [discriminate |].
  rewrite bind_lift_inr. intro Hout. exists ro. split; [reflexivity |].
  destruct (doesDependencyExist n ro).
  - left. simpl in Hout. inversion Hout. repeat split.
  - right.
    destruct (addDependency (OneName n) (toOperationOptions ro))
      as [c [e | []]]; simpl in Hout; [discriminate |].
    inversion Hout. repeat split.
Qed.

(** X4.  Every Command Executor call made by any of the five operations has a
    non-empty argument list without empty-string tokens: the subcommand is
    always there. *)
Theorem every_call_has_nonempty_tokens (i : Invocation) :
  (exists o, In i (calls (installDependencies o))) \/
  (exists n o, In i (calls (addDependency n o))) \/
  (exists n o, In i (calls (addDevDependency n o))) \/
  (exists n o, In i (calls (removeDependency n o))) \/
  (exists n o, In i (calls (ensureDependencyInstalled n o))) ->
  inv_args i <> [] /\ Forall (fun tok => tok <> "") (inv_args i).
Proof.
  assert (Hadd : forall n o, In i (calls (addDependency n o)) ->
            inv_args i <> [] /\ Forall (fun tok => tok <> "") (inv_args i)).
  { intros n o Hin.
    destruct (resolveOperationOptions o) as [e | ro] eqn:Hres.
    - rewrite (addDependency_unresolved _ _ _ Hres) in Hin. destruct Hin.
    - rewrite (addDependency_resolved _ _ _ Hres) in Hin.
      destruct Hin as [<- | []]. simpl. split.
      + intro Hnil.
        pose proof (addDependency_args_subcommand ro (namesOf n)) as Hsub.
        rewrite Hnil in Hsub. destruct Hsub.
      + apply filter_Boolean_nonempty. }
  intros [[o Hin] | [[n [o Hin]] | [[n [o Hin]] | [[n [o Hin]] | [n [o Hin]]]]]].
  - destruct (resolveOperationOptions (installOperationOptions o))
      as [e | ro] eqn:Hres.
    + rewrite (installDependencies_unresolved _ _ Hres) in Hin. destruct Hin.
    + rewrite (installDependencies_resolved _ _ Hres) in Hin.
      destruct Hin as [<- | []]. simpl.
      apply installDependencies_commandArgs_tokens.
  - exact (Hadd n o Hin).
  - exact (Hadd n (withDev o) Hin).
  - destruct (resolveOperationOptions o) as [e | ro] eqn:Hres.
    + rewrite (removeDependency_unresolved _ _ _ Hres) in Hin. destruct Hin.
    + rewrite (removeDependency_resolved _ _ _ Hres) in Hin.
      destruct Hin as [<- | []]. simpl. split.
      * intro Hnil.
        pose proof (removeDependency_args_subcommand ro n) as Hsub.
        rewrite Hnil in Hsub. destruct Hsub.
      * apply filter_Boolean_nonempty.
  - unfold ensureDependencyInstalled in Hin.
    destruct (resolveOperationOptions (ensureOperationOptions o))
      as [e | ro]; [destruct Hin |].
    rewrite bind_lift_inr in Hin.
    destruct (doesDependencyExist n ro); [destruct Hin |].
    apply (Hadd (OneName n) (toOperationOptions ro)).
    destruct (addDependency (OneName n) (toOperationOptions ro))
      as [c [e | u]]; unfold calls in *; simpl in *;
      try rewrite app_nil_r in Hin; exact Hin.
Qed.

Lemma filter_Boolean_all_empty (l : list string) :
  Forall (fun x => x = "") l -> filter Boolean l = [].
Proof.
  induction 1 as [| x l Hx _ IH]; simpl; [reflexivity |].
  rewrite Hx, IH. reflexivity.
Qed.

(** X5.  The complete argument table of addDependency.  Once the options are
    resolved the single call carries, in this order: on yarn the
    workspace-selector arguments, "global" when global is truthy and
    majorVersion is "1", "add", "-D" when dev is truthy, the non-empty names;
    on npm "install", the workspace-selector arguments, "-D" when dev, "-g"
    when global, the non-empty names; on pnpm and bun the same with "add". *)
Theorem addDependency_call_tokens
    (n : NameArg) (o : OperationOptions) (ro : ResolvedOperationOptions) :
  resolveOperationOptions o = inr ro ->
  calls (addDependency n o) =
    [mkInvocation (command (packageManager ro))
       match name (packageManager ro) with
       | yarn =>
           filter Boolean (getWorkspaceArgs ro) ++
           (if truthy (global ro) && (majorVersion (packageManager ro) =? "1")
            then ["global"] else []) ++
           ["add"] ++
           (if truthy (dev ro) then ["-D"] else []) ++
           filter Boolean (namesOf n)
       | npm =>
           ["install"] ++ filter Boolean (getWorkspaceArgs ro) ++
           (if truthy (dev ro) then ["-D"] else []) ++
           (if truthy (global ro) then ["-g"] else []) ++
           filter Boolean (namesOf n)
       | _ =>
           ["add"] ++ filter Boolean (getWorkspaceArgs ro) ++
           (if truthy (dev ro) then ["-D"] else []) ++
           (if truthy (global ro) then ["-g"] else []) ++
           filter Boolean (namesOf n)
       end
       (cwd ro) (silent ro)].
Proof.
  intro Hres. rewrite (addDependency_resolved _ _ _ Hres).
  rewrite addDependency_args_normal_form. reflexivity.
Qed.

(** X6.  The complete argument table of removeDependency.  Once the options
    are resolved the single call carries, in this order: on yarn "global"
    when global is truthy and majorVersion is "1", the workspace-selector
    arguments, "remove", "-D" when dev is truthy, "-g" when global is truthy,
    the name unless it is empty; on npm "uninstall", the workspace-selector
    arguments, "-D", "-g" and the name likewise; on pnpm and bun the same
    with "remove". *)
Theorem removeDependency_call_tokens
    (n : string) (o : OperationOptions) (ro : ResolvedOperationOptions) :
  resolveOperationOptions o = inr ro ->
  calls (removeDependency n o) =
    [mkInvocation (command (packageManager ro))
       match name (packageManager ro) with
       | yarn =>
           (if truthy (global ro) && (majorVersion (packageManager ro) =? "1")
            then ["global"] else []) ++
           filter Boolean (getWorkspaceArgs ro) ++
           ["remove"] ++
           (if truthy (dev ro) then ["-D"] else []) ++
           (if truthy (global ro) then ["-g"] else []) ++
           (if Boolean n then [n] else [])
       | npm =>
           ["uninstall"] ++ filter Boolean (getWorkspaceArgs ro) ++
           (if truthy (dev ro) then ["-D"] else []) ++
           (if truthy (global ro) then ["-g"] else []) ++
           (if Boolean n then [n] else [])
       | _ =>
           ["remove"] ++ filter Boolean (getWorkspaceArgs ro) ++
           (if truthy (dev ro) then ["-D"] else []) ++
           (if truthy (global ro) then ["-g"] else []) ++
           (if Boolean n then [n] else [])
       end
       (cwd ro) (silent ro)].
Proof.
  intro Hres. rewrite (removeDependency_resolved _ _ _ Hres).
  rewrite removeDependency_args_normal_form. simpl filter.
  destruct (name (packageManager ro)), (Boolean n); reflexivity.
Qed.

(** X7.  removeDependency mirrors addDependency of the same single name.
    Outside yarn the two argument lists differ in their first token only
    ("uninstall" against "install" on npm, "remove" against "add" on pnpm and
    bun); on yarn with a falsy global they differ in the subcommand only. *)
Theorem removeDependency_mirrors_addDependency
    (ro : ResolvedOperationOptions) (n : string) :
  (name (packageManager ro) <> yarn ->
     exists rest,
       addDependency_args ro [n] =
         (if eqPackageManagerName (name (packageManager ro)) npm
          then "install" else "add") :: rest /\
       removeDependency_args ro n =
         (if eqPackageManagerName (name (packageManager ro)) npm
          then "uninstall" else "remove") :: rest) /\
  (name (packageManager ro) = yarn -> truthy (global ro) = false ->
     exists before after,
       addDependency_args ro [n] = before ++ "add" :: after /\
       removeDependency_args ro n = before ++ "remove" :: after).
Proof.
  rewrite addDependency_args_normal_form, removeDependency_args_normal_form.
  split.
  - intro Hpm.
    destruct (name (packageManager ro));
      try (exfalso; apply Hpm; reflexivity); simpl;
      eexists; split; reflexivity.
  - intros Hpm Hglobal. rewrite Hpm, Hglobal. simpl.
    exists (filter Boolean (getWorkspaceArgs ro)).
    exists ((if truthy (dev ro) then ["-D"] else []) ++ filter Boolean [n]).
    split; reflexivity.
Qed.

(** X8.  The global flag on yarn.  With a truthy global, removeDependency on
    yarn passes "-g" for every majorVersion, and for majorVersion "1" its list
    starts with "global"; for any other majorVersion "global" occurs only as
    a workspace-selector argument or as the name.  addDependency on yarn
    never adds "-g": it occurs only as a workspace-selector argument or as a
    name. *)
Theorem yarn_global_flag_tokens (ro : ResolvedOperationOptions) :
  name (packageManager ro) = yarn ->
  truthy (global ro) = true ->
  (forall n, In "-g" (removeDependency_args ro n)) /\
  (majorVersion (packageManager ro) = "1" ->
     forall n, exists rest, removeDependency_args ro n = "global" :: rest) /\
  (majorVersion (packageManager ro) <> "1" ->
     forall n, In "global" (removeDependency_args ro n) ->
               In "global" (getWorkspaceArgs ro) \/ n = "global") /\
  (forall names, In "-g" (addDependency_args ro names) ->
                 In "-g" (getWorkspaceArgs ro) \/ In "-g" names).
Proof.
  intros Hpm Hglobal. repeat split.
  - intro n. rewrite removeDependency_args_normal_form, Hpm, Hglobal.
    repeat (rewrite in_app_iff; simpl). auto 10.
  - intros Hmv n. rewrite removeDependency_args_normal_form, Hpm, Hglobal, Hmv.
    simpl. eexists. reflexivity.
  - intros Hmv n. apply String.eqb_neq in Hmv.
    rewrite removeDependency_args_normal_form, Hpm, Hglobal, Hmv. simpl.
    rewrite in_app_iff. intros [Hin | Hin].
    + left. apply filter_In in Hin. apply Hin.
    + simpl in Hin. destruct Hin as [Hin | Hin]; [discriminate Hin |].
      apply in_app_or in Hin. destruct Hin as [Hin | Hin].
      * destruct (truthy (dev ro)); simpl in Hin;
          [destruct Hin as [Hin | []]; discriminate Hin | destruct Hin].
      * simpl in Hin. destruct Hin as [Hin | Hin]; [discriminate Hin |].
        destruct (Boolean n); simpl in Hin; [| destruct Hin].
        destruct Hin as [Hin | []]. right. exact Hin.
  - intros names. rewrite addDependency_args_normal_form, Hpm.
    rewrite in_app_iff. intros [Hin | Hin].
    + left. apply filter_In in Hin. apply Hin.
    + apply in_app_or in Hin. destruct Hin as [Hin | Hin].
      * destruct (truthy (global ro) && (majorVersion (packageManager ro) =? "1"));
          simpl in Hin; [destruct Hin as [Hin | []]; discriminate Hin | destruct Hin].
      * simpl in Hin. destruct Hin as [Hin | Hin]; [discriminate Hin |].
        apply in_app_or in Hin. destruct Hin as [Hin | Hin].
        -- destruct (truthy (dev ro)); simpl in Hin;
             [destruct Hin as [Hin | []]; discriminate Hin | destruct Hin].
        -- right. apply filter_In in Hin. apply Hin.
Qed.

(** X9.  On npm, addDependency without any non-empty name is a plain
    install: with dev and global falsy and no workspace-selector arguments it
    makes the same Command Executor call, with the same result, as
    installDependencies without frozenLockFile. *)
Theorem addDependency_without_names_is_install
    (names : list string) (o : OperationOptions) (io : InstallOptions)
    (ro : ResolvedOperationOptions) :
  resolveOperationOptions o = inr ro ->
  resolveOperationOptions (installOperationOptions io) = inr ro ->
  name (packageManager ro) = npm ->
  truthy (dev ro) = false ->
  truthy (global ro) = false ->
  getWorkspaceArgs ro = [] ->
  truthy (frozenLockFile io) = false ->
  Forall (fun x => x = "") names ->
  addDependency (ManyNames names) o = installDependencies io.
Proof.
  intros Hres Hires Hpm Hdev Hglobal Hws Hfrozen Hnames.
  rewrite (addDependency_resolved _ _ _ Hres),
          (installDependencies_resolved _ _ Hires).
  rewrite addDependency_args_normal_form, Hpm, Hdev, Hglobal, Hws.
  simpl namesOf. rewrite (filter_Boolean_all_empty _ Hnames).
  unfold installDependencies_commandArgs. rewrite Hfrozen. reflexivity.
Qed.

(** X10.  The argument list of installDependencies is ["ci"] exactly when
    frozenLockFile is truthy and the package manager is npm; in every other
    case it is "install" followed by at most one flag; and it depends on the
    resolved options through the package manager's name only. *)
Theorem installDependencies_commandArgs_shape
    (io : InstallOptions) (ro : ResolvedOperationOptions) :
  (installDependencies_commandArgs io ro = ["ci"] <->
     truthy (frozenLockFile io) = true /\ name (packageManager ro) = npm) /\
  (installDependencies_commandArgs io ro = ["ci"] \/
   exists flags, installDependencies_commandArgs io ro = "install" :: flags /\
                 length flags <= 1) /\
  (forall ro', name (packageManager ro') = name (packageManager ro) ->
     installDependencies_commandArgs io ro' =
     installDependencies_commandArgs io ro).
Proof.
  unfold installDependencies_commandArgs. repeat split.
  - destruct (truthy (frozenLockFile io)); [reflexivity | discriminate].
  - destruct (truthy (frozenLockFile io)); [| discriminate].
    destruct (name (packageManager ro)); simpl in *;
      [reflexivity | discriminate | discriminate | discriminate].
  - intros [Hfrozen Hpm]. rewrite Hfrozen, Hpm. reflexivity.
  - destruct (truthy (frozenLockFile io));
      [destruct (name (packageManager ro)) |]; simpl;
      try (left; reflexivity);
      right; eexists; (split; [reflexivity | simpl; auto using le_n, le_S]).
  - intros ro' Hsame. rewrite Hsame. reflexivity.
Qed.

End Api.

(** ** The Options Resolver *)

(** C8.  The Options Resolver is idempotent: resolving the result of a
    resolution again yields the identical object, whatever the Detector and
    the process working directory are by then (nothing is detected again and
    no field changes); so addDependency, handed the object resolved by
    ensureDependencyInstalled, runs on that very object. *)
Theorem resolveOperationOptions_idempotent
    (processCwd : string)
    (detectPackageManager : string -> option PackageManagerInfo)
    (options : OperationOptions) (ro : ResolvedOperationOptions) :
  resolveOperationOptions_spec processCwd detectPackageManager options = inr ro ->
  (forall processCwd' detectPackageManager',
     resolveOperationOptions_spec processCwd' detectPackageManager'
       (toOperationOptions ro) = inr ro) /\
  (forall getWorkspaceArgs exitsZero (n : NameArg),
     addDependency
       (resolveOperationOptions_spec processCwd detectPackageManager)
       getWorkspaceArgs exitsZero n (toOperationOptions ro) =
     executeCommand exitsZero (command (packageManager ro))
       (addDependency_args getWorkspaceArgs ro (namesOf n))
       (cwd ro) (silent ro)).
Proof.
  intros _.
  assert (Hagain : forall dir detect,
            resolveOperationOptions_spec dir detect (toOperationOptions ro) =
            inr ro).
  { intros dir detect. destruct ro. reflexivity. }
  split.
  - exact Hagain.
  - intros getWorkspaceArgs exitsZero n.
    apply addDependency_resolved. apply Hagain.
Qed.

(** ** The operations on sample projects *)

(** C1 on pnpm with a frozen lockfile. *)
Lemma installDependencies_argument_list_witness :
  resolveInWork
    (installOperationOptions (mkInstallOptions None None (Some pnpmInfo) (Some true)))
    = inr (resolvedInWork pnpmInfo None None) /\
  calls (installDependencies resolveInWork alwaysExits0
           (mkInstallOptions None None (Some pnpmInfo) (Some true))) =
    [mkInvocation "pnpm" ["install"; "--frozen-lockfile"] "/work" None].
Proof.
  split; [reflexivity |].
  destruct (installDependencies_argument_list resolveInWork alwaysExits0
              (mkInstallOptions None None (Some pnpmInfo) (Some true))
              (resolvedInWork pnpmInfo None None) eq_refl)
    as [args [Hcalls [Hfrozen _]]].
  specialize (Hfrozen eq_refl). simpl in Hfrozen.
  rewrite Hcalls, Hfrozen. reflexivity.
Defined.

(** C2 on yarn 1 and on yarn 2, both with [global: true]. *)
Lemma addDependency_yarn_global_token_witness :
  (resolveInWork (globalOptionsFor yarnClassicInfo)
     = inr (resolvedInWork yarnClassicInfo None (Some true)) /\
   name yarnClassicInfo = yarn /\
   opt_global (globalOptionsFor yarnClassicInfo) = Some true /\
   exists args before after,
     calls (addDependency resolveInWork noWorkspaceArgs alwaysExits0
              (OneName "foo") (globalOptionsFor yarnClassicInfo)) =
       [mkInvocation "yarn" args "/work" None] /\
     args = before ++ "global" :: "add" :: after) /\
  (resolveInWork (globalOptionsFor yarnBerryInfo)
     = inr (resolvedInWork yarnBerryInfo None (Some true)) /\
   name yarnBerryInfo = yarn /\
   majorVersion yarnBerryInfo <> "1" /\
   ~ In "global" (noWorkspaceArgs (resolvedInWork yarnBerryInfo None (Some true))) /\
   ~ In "global" ["foo"] /\
   exists args,
     calls (addDependency resolveInWork noWorkspaceArgs alwaysExits0
              (OneName "foo") (globalOptionsFor yarnBerryInfo)) =
       [mkInvocation "yarn" args "/work" None] /\
     args = ["add"; "foo"] /\
     ~ In "global" args).
Proof.
  assert (Hws : ~ In "global"
                  (noWorkspaceArgs (resolvedInWork yarnBerryInfo None (Some true)))).
  { intros []. }
  assert (Hfoo : ~ In "global" ["foo"]).
  { intros [H | []]. discriminate H. }
  split.
  - split; [reflexivity | split; [reflexivity | split; [reflexivity |]]].
    destruct (addDependency_yarn_global_token resolveInWork noWorkspaceArgs
                alwaysExits0 (OneName "foo") (globalOptionsFor yarnClassicInfo)
                (resolvedInWork yarnClassicInfo None (Some true))
                eq_refl eq_refl)
      as [args [Hcalls [_ [Hclassic _]]]].
    destruct (Hclassic eq_refl eq_refl eq_refl) as [before [after Hargs]].
    exists args, before, after. split; [exact Hcalls | exact Hargs].
  - split; [reflexivity | split; [reflexivity | split; [discriminate |]]].
    split; [exact Hws | split; [exact Hfoo |]].
    destruct (addDependency_yarn_global_token resolveInWork noWorkspaceArgs
                alwaysExits0 (OneName "foo") (globalOptionsFor yarnBerryInfo)
                (resolvedInWork yarnBerryInfo None (Some true))
                eq_refl eq_refl)
      as [args [Hcalls [_ [_ [Hberry [_ Habsent]]]]]].
    assert (Hmv : majorVersion
                    (packageManager (resolvedInWork yarnBerryInfo None (Some true)))
                  <> "1") by discriminate.
    exists args. split; [exact Hcalls | split].
    + exact (Hberry Hmv).
    + exact (Habsent Hmv Hws Hfoo).
Defined.

(** C3 on the project in [/proj], where "foo" is installed and "bar" is not,
    for a dev dependency of the workspace "pkg": the command runs in the
    resolved directory with the resolved dev and workspace. *)
Lemma ensureDependencyInstalled_present_or_delegates_witness :
  resolveWithProj
    (mkOperationOptions (Some "/proj") None None (Some true) (Some "pkg") None)
    = inr (mkResolvedOperationOptions "/proj" None pnpmInfo (Some true)
             (Some "pkg") None) /\
  installedDeps ["foo"] "foo"
    (mkResolvedOperationOptions "/proj" None pnpmInfo (Some true)
       (Some "pkg") None) = true /\
  installedDeps ["foo"] "bar"
    (mkResolvedOperationOptions "/proj" None pnpmInfo (Some true)
       (Some "pkg") None) = false /\
  ensureDependencyInstalled resolveWithProj filterWorkspaceArgs
    (installedDeps ["foo"]) alwaysExits0 "foo"
    (mkEnsureOptions (Some "/proj") (Some true) (Some "pkg"))
    = ([], inr (Some true)) /\
  calls (ensureDependencyInstalled resolveWithProj filterWorkspaceArgs
           (installedDeps ["foo"]) alwaysExits0 "bar"
           (mkEnsureOptions (Some "/proj") (Some true) (Some "pkg"))) =
    [mkInvocation "pnpm" ["add"; "--filter"; "pkg"; "-D"; "bar"] "/proj" None].
Proof.
  split; [reflexivity | split; [reflexivity | split; [reflexivity | split]]].
  - apply (ensureDependencyInstalled_present_or_delegates resolveWithProj
             filterWorkspaceArgs (installedDeps ["foo"]) alwaysExits0 "foo"
             (mkEnsureOptions (Some "/proj") (Some true) (Some "pkg"))
             (mkResolvedOperationOptions "/proj" None pnpmInfo (Some true)
                (Some "pkg") None) eq_refl).
    reflexivity.
  - destruct (ensureDependencyInstalled_present_or_delegates
                resolveWithProj filterWorkspaceArgs (installedDeps ["foo"])
                alwaysExits0 "bar"
                (mkEnsureOptions (Some "/proj") (Some true) (Some "pkg"))
                (mkResolvedOperationOptions "/proj" None pnpmInfo (Some true)
                   (Some "pkg") None) eq_refl)
      as [_ Habsent].
    destruct (Habsent eq_refl) as [_ [_ [_ [_ Hcall]]]].
    exact (Hcall (mkResolvedOperationOptions "/proj" None pnpmInfo (Some true)
                    (Some "pkg") None) eq_refl).
Defined.

(** C4 on npm. *)
Lemma removeDependency_default_argument_list_witness :
  resolveInWork (optionsFor npmInfo) = inr (resolvedInWork npmInfo None None) /\
  "foo" <> "" /\
  calls (removeDependency resolveInWork noWorkspaceArgs alwaysExits0
           "foo" (optionsFor npmInfo)) =
    [mkInvocation "npm" ["uninstall"; "foo"] "/work" None].
Proof.
  split; [reflexivity | split; [discriminate |]].
  destruct (removeDependency_default_argument_list resolveInWork
              noWorkspaceArgs alwaysExits0 "foo" (optionsFor npmInfo)
              (resolvedInWork npmInfo None None) eq_refl)
    as [args [Hcalls [_ Hdefault]]]; [discriminate |].
  specialize (Hdefault eq_refl eq_refl eq_refl). simpl in Hdefault.
  rewrite Hcalls, Hdefault. reflexivity.
Defined.

(** C4, counterexample: at the empty name the synthesized list is
    ["uninstall"], not ["uninstall", ""], and no name is appended. *)
Lemma removeDependency_empty_name_dropped :
  calls (removeDependency resolveInWork noWorkspaceArgs alwaysExits0
           "" (optionsFor npmInfo)) =
    [mkInvocation "npm" ["uninstall"] "/work" None] /\
  ["uninstall"] <> ["uninstall"; ""].
Proof. split; [reflexivity | discriminate]. Qed.

(** C5 on npm. *)
Lemma addDependency_dev_argument_list_witness :
  resolveInWork (devOptionsFor npmInfo)
    = inr (resolvedInWork npmInfo (Some true) None) /\
  name npmInfo <> yarn /\
  calls (addDependency resolveInWork noWorkspaceArgs alwaysExits0
           (OneName "foo") (devOptionsFor npmInfo)) =
    [mkInvocation "npm" ["install"; "-D"; "foo"] "/work" None].
Proof.
  split; [reflexivity | split; [discriminate |]].
  destruct (addDependency_dev_argument_list resolveInWork noWorkspaceArgs
              alwaysExits0 (devOptionsFor npmInfo)
              (resolvedInWork npmInfo (Some true) None) eq_refl)
    as [args [Hcalls [_ Hwhole]]];
    [discriminate | reflexivity | reflexivity |].
  specialize (Hwhole eq_refl). simpl in Hwhole.
  rewrite Hcalls, Hwhole. reflexivity.
Defined.

(** C6 on the project where only pnpm is detected, and on options that set
    every field: the caller's cwd, silent, packageManager, workspace and
    global reach the command, and its [dev: false] is overridden. *)
Lemma addDevDependency_is_addDependency_dev_witness :
  (resolveInPnpmProject
     (mkOperationOptions None None None (Some true) None None)
     = inr (resolvedInWork pnpmInfo (Some true) None) /\
   calls (addDevDependency resolveInPnpmProject noWorkspaceArgs alwaysExits0
            (OneName "left-pad") emptyOptions) =
     [mkInvocation "pnpm" ["add"; "-D"; "left-pad"] "/work" None]) /\
  calls (addDevDependency resolveInWork filterWorkspaceArgs alwaysExits0
           (OneName "left-pad")
           (mkOperationOptions (Some "/proj") (Some true) (Some npmInfo)
              (Some false) (Some "pkg") (Some true))) =
    [mkInvocation "npm" ["install"; "--filter"; "pkg"; "-D"; "-g"; "left-pad"]
       "/proj" (Some true)].
Proof.
  split.
  - split; [reflexivity |].
    exact (proj2 (addDevDependency_is_addDependency_dev resolveInPnpmProject
                    noWorkspaceArgs alwaysExits0)
             emptyOptions (resolvedInWork pnpmInfo (Some true) None)
             eq_refl eq_refl eq_refl eq_refl eq_refl).
  - rewrite (proj1 (addDevDependency_is_addDependency_dev resolveInWork
                      filterWorkspaceArgs alwaysExits0)
               (OneName "left-pad")
               (mkOperationOptions (Some "/proj") (Some true) (Some npmInfo)
                  (Some false) (Some "pkg") (Some true))).
    reflexivity.
Defined.

(** C8: options resolved in the pnpm project resolve to themselves where no
    package manager can be detected. *)
Lemma resolveOperationOptions_idempotent_witness :
  resolveInPnpmProject (devOptionsFor npmInfo)
    = inr (resolvedInWork npmInfo (Some true) None) /\
  resolveOperationOptions_spec "/elsewhere" noProject
    (toOperationOptions (resolvedInWork npmInfo (Some true) None))
    = inr (resolvedInWork npmInfo (Some true) None).
Proof.
  split; [reflexivity |].
  exact (proj1 (resolveOperationOptions_idempotent "/work" pnpmProject
                  (devOptionsFor npmInfo)
                  (resolvedInWork npmInfo (Some true) None) eq_refl)
           "/elsewhere" noProject).
Defined.

(** C9 on npm with two names. *)
Lemma addDependency_names_after_flags_witness :
  resolveInWork (optionsFor npmInfo) = inr (resolvedInWork npmInfo None None) /\
  Forall (fun x => x <> "") ["a"; "b"] /\
  calls (addDependency resolveInWork noWorkspaceArgs alwaysExits0
           (ManyNames ["a"; "b"]) (optionsFor npmInfo)) =
    [mkInvocation "npm" (["install"] ++ ["a"; "b"]) "/work" None].
Proof.
  assert (Hnames : Forall (fun x => x <> "") ["a"; "b"]).
  { repeat constructor; discriminate. }
  split; [reflexivity | split; [exact Hnames |]].
  exact (proj2 (proj2 (addDependency_names_after_flags resolveInWork
                         noWorkspaceArgs alwaysExits0)
                  ["a"; "b"] (optionsFor npmInfo)
                  (resolvedInWork npmInfo None None) eq_refl)
           Hnames).
Defined.

(** C9, counterexample: on a list with an empty name the names do not all
    appear, and the list is not the flag tokens followed by the names. *)
Lemma addDependency_empty_name_in_list :
  exists i : Invocation,
    calls (addDependency resolveInWork noWorkspaceArgs alwaysExits0
             (ManyNames ["a"; ""; "b"]) (optionsFor npmInfo)) = [i] /\
    inv_args i = ["install"; "a"; "b"] /\
    ~ In "" (inv_args i) /\
    forall flags : list string, inv_args i <> flags ++ ["a"; ""; "b"].
Proof.
  exists (mkInvocation "npm" ["install"; "a"; "b"] "/work" None).
  assert (Hnone : ~ In "" ["install"; "a"; "b"]).
  { simpl. intros [H | [H | [H | []]]]; discriminate H. }
  repeat split; try assumption.
  intros flags Heq. apply Hnone. simpl in Heq. rewrite Heq.
  apply in_or_app. right. right. left. reflexivity.
Qed.

(** C10 on npm. *)
Lemma empty_name_is_filtered_out_witness :
  resolveInWork (optionsFor npmInfo) = inr (resolvedInWork npmInfo None None) /\
  calls (addDependency resolveInWork noWorkspaceArgs alwaysExits0
           (OneName "") (optionsFor npmInfo)) =
    [mkInvocation "npm" ["install"] "/work" None] /\
  exists flags : list string,
    calls (removeDependency resolveInWork noWorkspaceArgs alwaysExits0
             "" (optionsFor npmInfo)) =
      [mkInvocation "npm" flags "/work" None] /\
    removeDependency_args noWorkspaceArgs (resolvedInWork npmInfo None None) "foo"
      = flags ++ ["foo"].
Proof.
  split; [reflexivity |].
  destruct (empty_name_is_filtered_out resolveInWork noWorkspaceArgs
              alwaysExits0 (optionsFor npmInfo)
              (resolvedInWork npmInfo None None) eq_refl)
    as [_ [[flags [Hcalls Hflags]] Hnpm]].
  split.
  - exact (Hnpm eq_refl eq_refl eq_refl eq_refl).
  - exists flags. split; [exact Hcalls | exact (Hflags "foo")].
Defined.

(** X1 where nothing can be detected and the caller names no package
    manager. *)
Lemma resolver_rejection_makes_no_call_witness :
  resolveInWork emptyOptions = inl DetectionError /\
  resolveInWork (ensureOperationOptions (mkEnsureOptions None None None))
    = inl DetectionError /\
  addDependency resolveInWork noWorkspaceArgs alwaysExits0
    (OneName "foo") emptyOptions = ([], inl DetectionError) /\
  removeDependency resolveInWork noWorkspaceArgs alwaysExits0
    "foo" emptyOptions = ([], inl DetectionError) /\
  ensureDependencyInstalled resolveInWork noWorkspaceArgs
    (installedDeps []) alwaysExits0 "foo" (mkEnsureOptions None None None)
    = ([], inl DetectionError).
Proof.
  destruct (resolver_rejection_makes_no_call resolveInWork noWorkspaceArgs
              (installedDeps []) alwaysExits0 DetectionError)
    as [_ [Hadd [_ [Hremove [Hensure _]]]]].
  split; [reflexivity | split; [reflexivity |]].
  split; [apply Hadd; reflexivity |].
  split; [apply Hremove; reflexivity | apply Hensure; reflexivity].
Defined.

(** X3 in a pnpm project where "foo" is installed. *)
Lemma ensureDependencyInstalled_resolved_value_witness :
  outcome (ensureDependencyInstalled resolveInPnpmProject noWorkspaceArgs
             (installedDeps ["foo"]) alwaysExits0 "foo"
             (mkEnsureOptions None None None)) = inr (Some true) /\
  exists ro,
    resolveInPnpmProject (ensureOperationOptions (mkEnsureOptions None None None))
      = inr ro /\
    ((Some true = Some true /\ installedDeps ["foo"] "foo" ro = true /\
      calls (ensureDependencyInstalled resolveInPnpmProject noWorkspaceArgs
               (installedDeps ["foo"]) alwaysExits0 "foo"
               (mkEnsureOptions None None None)) = []) \/
     (Some true = None /\ installedDeps ["foo"] "foo" ro = false /\
      outcome (addDependency resolveInPnpmProject noWorkspaceArgs alwaysExits0
                 (OneName "foo") (toOperationOptions ro)) = inr tt)).
Proof.
  split; [reflexivity |].
  apply (ensureDependencyInstalled_resolved_value resolveInPnpmProject
           noWorkspaceArgs (installedDeps ["foo"]) alwaysExits0 "foo"
           (mkEnsureOptions None None None) (Some true)).
  reflexivity.
Defined.

(** X4 on the call of removeDependency("") under npm. *)
Lemma every_call_has_nonempty_tokens_witness :
  In (mkInvocation "npm" ["uninstall"] "/work" None)
     (calls (removeDependency resolveInWork noWorkspaceArgs alwaysExits0
               "" (optionsFor npmInfo))) /\
  ["uninstall"] <> [] /\ Forall (fun tok => tok <> "") ["uninstall"].
Proof.
  assert (Hin : In (mkInvocation "npm" ["uninstall"] "/work" None)
                  (calls (removeDependency resolveInWork noWorkspaceArgs
                            alwaysExits0 "" (optionsFor npmInfo)))).
  { left. reflexivity. }
  split; [exact Hin |].
  apply (every_call_has_nonempty_tokens resolveInWork noWorkspaceArgs
           (installedDeps []) alwaysExits0
           (mkInvocation "npm" ["uninstall"] "/work" None)).
  right. right. right. left. exists "", (optionsFor npmInfo). exact Hin.
Defined.

(** X5 on npm with dev, global and two names. *)
Lemma addDependency_call_tokens_witness :
  resolveInWork (devGlobalOptionsFor npmInfo)
    = inr (resolvedInWork npmInfo (Some true) (Some true)) /\
  calls (addDependency resolveInWork noWorkspaceArgs alwaysExits0
           (ManyNames ["a"; "b"]) (devGlobalOptionsFor npmInfo)) =
    [mkInvocation "npm" ["install"; "-D"; "-g"; "a"; "b"] "/work" None].
Proof.
  split; [reflexivity |].
  exact (addDependency_call_tokens resolveInWork noWorkspaceArgs alwaysExits0
           (ManyNames ["a"; "b"]) (devGlobalOptionsFor npmInfo)
           (resolvedInWork npmInfo (Some true) (Some true)) eq_refl).
Defined.

(** X6 on yarn 1 with dev and global. *)
Lemma removeDependency_call_tokens_witness :
  resolveInWork (devGlobalOptionsFor yarnClassicInfo)
    = inr (resolvedInWork yarnClassicInfo (Some true) (Some true)) /\
  calls (removeDependency resolveInWork noWorkspaceArgs alwaysExits0
           "foo" (devGlobalOptionsFor yarnClassicInfo)) =
    [mkInvocation "yarn" ["global"; "remove"; "-D"; "-g"; "foo"] "/work" None].
Proof.
  split; [reflexivity |].
  exact (removeDependency_call_tokens resolveInWork noWorkspaceArgs
           alwaysExits0 "foo" (devGlobalOptionsFor yarnClassicInfo)
           (resolvedInWork yarnClassicInfo (Some true) (Some true)) eq_refl).
Defined.

(** X7 on pnpm with dev, and on yarn 2 without global. *)
Lemma removeDependency_mirrors_addDependency_witness :
  (name pnpmInfo <> yarn /\
   exists rest,
     addDependency_args noWorkspaceArgs
       (resolvedInWork pnpmInfo (Some true) None) ["foo"] = "add" :: rest /\
     removeDependency_args noWorkspaceArgs
       (resolvedInWork pnpmInfo (Some true) None) "foo" = "remove" :: rest) /\
  (name yarnBerryInfo = yarn /\ truthy None = false /\
   exists before after,
     addDependency_args noWorkspaceArgs
       (resolvedInWork yarnBerryInfo None None) ["foo"]
       = before ++ "add" :: after /\
     removeDependency_args noWorkspaceArgs
       (resolvedInWork yarnBerryInfo None None) "foo"
       = before ++ "remove" :: after).
Proof.
  split.
  - split; [discriminate |].
    apply (proj1 (removeDependency_mirrors_addDependency noWorkspaceArgs
                    (resolvedInWork pnpmInfo (Some true) None) "foo")).
    discriminate.
  - split; [reflexivity | split; [reflexivity |]].
    apply (proj2 (removeDependency_mirrors_addDependency noWorkspaceArgs
                    (resolvedInWork yarnBerryInfo None None) "foo"));
      reflexivity.
Defined.

(** X8 on yarn 2 with global. *)
Lemma yarn_global_flag_tokens_witness :
  name yarnBerryInfo = yarn /\ truthy (Some true) = true /\
  In "-g" (removeDependency_args noWorkspaceArgs
             (resolvedInWork yarnBerryInfo None (Some true)) "foo") /\
  removeDependency_args noWorkspaceArgs
    (resolvedInWork yarnBerryInfo None (Some true)) "foo"
    = ["remove"; "-g"; "foo"].
Proof.
  split; [reflexivity | split; [reflexivity | split; [| reflexivity]]].
  apply (proj1 (yarn_global_flag_tokens noWorkspaceArgs
                  (resolvedInWork yarnBerryInfo None (Some true))
                  eq_refl eq_refl)).
Defined.

(** X9 on npm with a single empty name. *)
Lemma addDependency_without_names_is_install_witness :
  resolveInWork (optionsFor npmInfo) = inr (resolvedInWork npmInfo None None) /\
  resolveInWork
    (installOperationOptions (mkInstallOptions None None (Some npmInfo) None))
    = inr (resolvedInWork npmInfo None None) /\
  Forall (fun x => x = "") [""] /\
  addDependency resolveInWork noWorkspaceArgs alwaysExits0
    (ManyNames [""]) (optionsFor npmInfo) =
  installDependencies resolveInWork alwaysExits0
    (mkInstallOptions None None (Some npmInfo) None).
Proof.
  assert (Hnames : Forall (fun x => x = "") [""]).
  { repeat constructor. }
  split; [reflexivity | split; [reflexivity | split; [exact Hnames |]]].
  exact (addDependency_without_names_is_install resolveInWork noWorkspaceArgs
           alwaysExits0 [""] (optionsFor npmInfo)
           (mkInstallOptions None None (Some npmInfo) None)
           (resolvedInWork npmInfo None None)
           eq_refl eq_refl eq_refl eq_refl eq_refl eq_refl eq_refl Hnames).
Defined.

(** X10 on npm with a frozen lockfile. *)
Lemma installDependencies_commandArgs_shape_witness :
  truthy (frozenLockFile (mkInstallOptions None None None (Some true))) = true /\
  name (packageManager (resolvedInWork npmInfo None None)) = npm /\
  installDependencies_commandArgs
    (mkInstallOptions None None None (Some true))
    (resolvedInWork npmInfo None None) = ["ci"].
Proof.
  split; [reflexivity | split; [reflexivity |]].
  apply (proj1 (installDependencies_commandArgs_shape
                  (mkInstallOptions None None None (Some true))
                  (resolvedInWork npmInfo None None))).
  split; reflexivity.
Defined.
